(** * KGTorrent pipeline controller ([KGTorrent/kgtorrent.py])

    A shallow embedding of the entry point [main] of KGTorrent and the
    properties of its guard stage, stage sequencing and notebook selection.

    The controller talks to collaborators whose code lives in other modules
    (the database handler, the data loader, the Meta Kaggle preprocessor, the
    downloader, the console and the file system).  Each call to one of them
    is recorded as an [event]; what the collaborator answers -- a value or a
    raised exception -- is read from a [World].  A run of [main] is then a
    pure function of the configuration, the command line and the world, and
    yields the sequence of events performed together with the way the
    function ended. *)

From stdpp Require Import base list strings gmap.
From Stdlib Require Import Ascii String ZArith.

Local Open Scope string_scope.
Local Open Scope list_scope.

(** ** Data *)

(** [class Commands]: the three values accepted for the positional
    argument; [argparse] rejects every other string ([choices=...]). *)
Inductive Commands : Type := INIT | REFRESH | DOWNLOAD.

Definition command_name (c : Commands) : string :=
  match c with
  | INIT => "init"
  | REFRESH => "refresh"
  | DOWNLOAD => "download"
  end.

Definition commands : list Commands := [INIT; REFRESH; DOWNLOAD].

Definition Commands_eqb (a b : Commands) : bool :=
  String.eqb (command_name a) (command_name b).

(** The namespace returned by [my_parser.parse_args()].  The strategy stays
    a string: the controller only ever compares it with ["SKIP"] and passes
    it on to the downloader. *)
Record Args : Type := mkArgs {
  command : Commands;
  strategy : string;
  matching : list string
}.

(** The values read from [KGTorrent.config]. *)
Record Config : Type := mkConfig {
  db_username : string;
  db_password : string;
  db_host : string;
  db_port : string;
  db_name : string;
  nb_archive_path : string;
  constraints_file_path : string;
  meta_kaggle_path : string;
  nb_conf_languages : list string
}.

(** Tabular data handed from one collaborator to the next; the controller
    never looks inside. *)
Definition DataFrame : Type := list (list string).
Definition TablesDict : Type := gmap string DataFrame.

(** A raised Python exception, by the name of its class. *)
Inductive exn : Type := Raised (name : string).

(** The answer of a collaborator: [inl e] when the call raises [e]. *)
Definition result (A : Type) : Type := (exn + A)%type.

Inductive stream : Type := stdout | stderr.

(** One constructor per call that leaves the controller. *)
Inductive event : Type :=
  | EPrint (file : stream) (msg : string)
  | EPrintStats (stats : DataFrame)
  | EPrintIdentifiers (ids : list string)
  | EDbEngine (user password host port name : string)
  | EDbExists
  | EInput (prompt : string)
  | EIterdir (path : string)
  | EDataLoader (constraints_path source_path : string)
  | EGetTablesDict
  | EGetConstraintsDf
  | EMkPreprocessor (tables : TablesDict) (constraints : DataFrame)
  | EPreprocessMk
  | ECreateNewDb (drop_if_exists : bool)
  | EWriteTables (tables : TablesDict)
  | ESetForeignKeys (constraints : DataFrame)
  | EGetNbIdentifiers (languages : list string)
  | EDel (variable : string)
  | EDownloader (ids : list string) (path : string)
  | EDownloadNotebooks (strategy : string)
  | ESleep
  | ETime
  | EPrintElapsed.

(** What the collaborators answer during one run.  Every method is called
    at most once by [main], except [get_constraints_df], whose answers are
    numbered by call.  [set_order a b X] is the list that [list(...)] makes
    of the set [X] obtained as [set(a) & set(b)]: the language leaves the
    order open, and in CPython it depends on how the set was built, hence on
    the two operands. *)
Record World : Type := mkWorld {
  new_db_engine : result unit;
  db_exists : result bool;
  input : result string;
  iterdir_next : result (option string);
  new_data_loader : result unit;
  get_tables_dict : result TablesDict;
  get_constraints_df : nat -> result DataFrame;
  new_mk_preprocessor : result unit;
  preprocess_mk : result (TablesDict * DataFrame);
  create_new_db : result unit;
  write_tables : result unit;
  set_foreign_keys : result unit;
  get_nb_identifiers : result (list string);
  set_order : list string -> list string -> gset string -> list string;
  new_downloader : result unit;
  download_notebooks : result unit
}.

(** [set_order] enumerates every set without repetition and without
    inventing or losing elements, whatever the operands it was built from. *)
Definition faithful_order (w : World) : Prop :=
  forall (a b : list string) (X : gset string),
    set_order w a b X ≡ₚ elements X.

(** ** The monad of the controller: a log of events and an outcome *)

Definition M (A : Type) : Type := (list event * result A)%type.

Definition ret {A} (a : A) : M A := ([], inr a).

Definition bind {A B} (m : M A) (k : A -> M B) : M B :=
  match m with
  | (t, inl e) => (t, inl e)
  | (t, inr a) => let '(t', r) := k a in (t ++ t', r)
  end.

(** A call to a collaborator: logged, then answered by the world. *)
Definition call {A} (e : event) (r : result A) : M A := ([e], r).

Definition print (f : stream) (msg : string) : M unit :=
  call (EPrint f msg) (inr tt).

Definition trace {A} (m : M A) : list event := fst m.
Definition outcome {A} (m : M A) : result A := snd m.

Declare Scope ctl_scope.
Delimit Scope ctl_scope with ctl.
Notation "x <~ m ;; k" := (bind m (fun x => k))
  (at level 100, m at level 99, k at level 200, right associativity,
   format "'[v' x  <~  m  ;; '/' k ']'") : ctl_scope.
Notation "m >> k" := (bind m (fun _ => k))
  (at level 100, k at level 200, right associativity,
   format "'[v' m  >> '/' k ']'") : ctl_scope.
Local Open Scope ctl_scope.

(** ** [str.lower] *)

(** On the letters A-Z [str.lower] adds 32 to the code; every other
    one-byte character is left as it is.  (No character outside ASCII is
    lowered to one of [y], [e], [s], so for the comparison with ["yes"]
    below the bytes of a longer encoding may stay as they are.) *)
Definition ascii_lower (c : ascii) : ascii :=
  let n := N_of_ascii c in
  if ((65 <=? n)%N && (n <=? 90)%N)%bool then ascii_of_N (n + 32) else c.

Fixpoint lower (s : string) : string :=
  match s with
  | EmptyString => EmptyString
  | String c r => String (ascii_lower c) (lower r)
  end.

(** ** Messages *)

Definition nl : string := String (ascii_of_nat 10) EmptyString.

Definition msg_connecting (cfg : Config) : string :=
  "## Connecting to " +:+ db_name cfg +:+ " db on port " +:+ db_port cfg
  +:+ " as user " +:+ db_username cfg.

Definition msg_already_exists (cfg : Config) : string :=
  "Database " +:+ db_name cfg +:+ " already exists. ".

Definition msg_name_in_use : string :=
  "Please, provide a name that is not already in use for the KGTorrent database.".

Definition msg_will_reinitialize (cfg : Config) : string :=
  "Database " +:+ db_name cfg
  +:+ " already exists. This operation will reinitialize the current database".

Definition msg_confirm (cfg : Config) : string :=
  "Are you sure to re-initialize " +:+ db_name cfg +:+ " database? [yes]" +:+ nl.

Definition msg_only_download (cfg : Config) : string :=
  "Database " +:+ db_name cfg
  +:+ " already exists. This operation will only download the notebooks.".

Definition msg_folder_not_empty (cfg : Config) : string :=
  "Download folder " +:+ nb_archive_path cfg +:+ " is not empty.".

Definition msg_empty_folder_please : string :=
  "Please, provide the path to an empty folder to store downloaded notebooks.".

Definition msg_strategy (args : Args) : string :=
  "# Selected strategy. " +:+ strategy args.

Definition msg_end : string := "## KGTorrent end".

(** ** The controller *)

Definition is_not_None {A} (o : option A) : bool :=
  match o with Some _ => true | None => false end.

(** Lines 110-138, [# CHECK USER VARIABLES]: the guard stage.  The local
    variable [proceed] is threaded through the three consecutive [if]
    statements on the command and through the folder check; the value
    returned is the Proceed Flag. *)
Definition check_user_variables (cfg : Config) (w : World) (command : Commands)
  : M bool :=
  let proceed := false in
  exists_ <~ call EDbExists (db_exists w) ;;
  proceed <~
    (if exists_ : bool then
       proceed <~
         (if Commands_eqb command INIT then
            print stderr (msg_already_exists cfg) >>
            print stderr msg_name_in_use >>
            ret false
          else ret proceed) ;;
       proceed <~
         (if Commands_eqb command REFRESH then
            print stdout (msg_will_reinitialize cfg) >>
            print stdout "and populate it with the provided MetaKaggle version." >>
            ans <~ call (EInput (msg_confirm cfg)) (input w) ;;
            if String.eqb (lower ans) "yes" then ret true else ret false
          else ret proceed) ;;
       (if Commands_eqb command DOWNLOAD then
          print stdout (msg_only_download cfg) >>
          ret proceed
        else ret proceed)
     else ret true) ;;
  data <~ call (EIterdir (nb_archive_path cfg)) (iterdir_next w) ;;
  if (is_not_None data
      && (Commands_eqb command INIT || Commands_eqb command DOWNLOAD))%bool
  then
    print stderr (msg_folder_not_empty cfg) >>
    print stderr msg_empty_folder_please >>
    ret false
  else ret proceed.

(** Lines 142-171: the body of [if proceed and (command != Commands.DOWNLOAD)]. *)
Definition data_preparation (cfg : Config) (w : World) : M unit :=
  print stdout "********************" >>
  print stdout "*** LOADING DATA ***" >>
  print stdout "********************" >>
  call (EDataLoader (constraints_file_path cfg) (meta_kaggle_path cfg))
       (new_data_loader w) >>
  print stdout "***********************************" >>
  print stdout "** TABLES PRE-PROCESSING STARTED **" >>
  print stdout "***********************************" >>
  tables <~ call EGetTablesDict (get_tables_dict w) ;;
  constraints <~ call EGetConstraintsDf (get_constraints_df w 0) ;;
  call (EMkPreprocessor tables constraints) (new_mk_preprocessor w) >>
  processed <~ call EPreprocessMk (preprocess_mk w) ;;
  let processed_dict := fst processed in
  let stats := snd processed in
  print stdout "*************" >>
  print stdout "*** STATS ***" >>
  print stdout ("*************" +:+ nl) >>
  call (EPrintStats stats) (inr tt) >>
  print stdout "## Initializing DB..." >>
  call (ECreateNewDb true) (create_new_db w) >>
  print stdout "***************************" >>
  print stdout "** DB POPULATION STARTED **" >>
  print stdout "***************************" >>
  call (EWriteTables processed_dict) (write_tables w) >>
  print stdout "** APPLICATION OF CONSTRAINTS **" >>
  constraints' <~ call EGetConstraintsDf (get_constraints_df w 1) ;;
  call (ESetForeignKeys constraints') (set_foreign_keys w) >>
  call (EDel "dl") (inr tt) >>
  call (EDel "mk") (inr tt).

(** Line 194: [list(set(nb_identifiers) & set(args.matching))]. *)
Definition download_identifiers (w : World) (nb_identifiers matching : list string)
  : list string :=
  set_order w nb_identifiers matching
            (list_to_set nb_identifiers ∩ list_to_set matching).

(** Lines 175-199: the body of [if proceed]. *)
Definition notebook_download (cfg : Config) (w : World) (args : Args) : M unit :=
  print stdout "** QUERYING KERNELS TO DOWNLOAD **" >>
  nb_identifiers <~
    call (EGetNbIdentifiers (nb_conf_languages cfg)) (get_nb_identifiers w) ;;
  print stdout "*******************" >>
  print stdout "*** Identifiers ***" >>
  print stdout ("*******************" +:+ nl) >>
  call (EPrintIdentifiers nb_identifiers) (inr tt) >>
  call (EDel "db_engine") (inr tt) >>
  print stdout "*******************************" >>
  print stdout "** NOTEBOOK DOWNLOAD STARTED **" >>
  print stdout "*******************************" >>
  print stdout (msg_strategy args) >>
  if negb (String.eqb (strategy args) "SKIP") then
    call (EDownloader (download_identifiers w nb_identifiers (matching args))
                      (nb_archive_path cfg))
         (new_downloader w) >>
    call (EDownloadNotebooks (strategy args)) (download_notebooks w) >>
    print stdout "## Download finished."
  else
    print stdout "## Download skipped.".

(** Lines 94-108: the banner and the construction of the database handler. *)
Definition connect (cfg : Config) (w : World) : M unit :=
  print stdout "************************" >>
  print stdout "*** KGTORRENT STARTED***" >>
  print stdout "************************" >>
  print stdout (msg_connecting cfg) >>
  call (EDbEngine (db_username cfg) (db_password cfg) (db_host cfg)
                  (db_port cfg) (db_name cfg))
       (new_db_engine w) >>
  print stdout "## Connection with database established.".

(** Lines 140-202: the two gated stages and the closing lines of [main]. *)
Definition run_stages (cfg : Config) (w : World) (args : Args) (proceed : bool)
  : M unit :=
  (if (proceed && negb (Commands_eqb (command args) DOWNLOAD))%bool
   then data_preparation cfg w else ret tt) >>
  (if proceed then notebook_download cfg w args else ret tt) >>
  call ESleep (inr tt) >>
  print stdout msg_end.

(** [main()], after [parse_args] has produced [args]. *)
Definition main (cfg : Config) (w : World) (args : Args) : M unit :=
  let command := command args in
  connect cfg w >>
  proceed <~ check_user_variables cfg w command ;;
  run_stages cfg w args proceed.

(** [entry()]: [main] between two readings of the clock.  The last line
    prints the elapsed minutes, a floating-point number put into the
    template of line 208; the event [EPrintElapsed] stands for that print. *)
Definition entry (cfg : Config) (w : World) (args : Args) : M unit :=
  call ETime (inr tt) >>
  main cfg w args >>
  call ETime (inr tt) >>
  call EPrintElapsed (inr tt).


(** ** Vocabulary of the properties *)

(** The guard stage of a run of [main] is reached (the database handler was
    constructed) and leaves the Proceed Flag at [d]. *)
Definition guard_decides (cfg : Config) (w : World) (args : Args) (d : bool)
  : Prop :=
  new_db_engine w = inr tt /\
  outcome (check_user_variables cfg w (command args)) = inr d.

(** The destructive calls on the database handler and every use of the
    downloader. *)
Definition is_mutation (e : event) : bool :=
  match e with
  | ECreateNewDb _ | EWriteTables _ | ESetForeignKeys _
  | EDownloader _ _ | EDownloadNotebooks _ => true
  | _ => false
  end.

(** The three observations the guard stage makes. *)
Definition is_guard_check (e : event) : bool :=
  match e with
  | EDbExists | EInput _ | EIterdir _ => true
  | _ => false
  end.

Definition is_print (e : event) : bool :=
  match e with
  | EPrint _ _ | EPrintStats _ | EPrintIdentifiers _ | EPrintElapsed => true
  | _ => false
  end.

(** Instantiation and invocation of the downloader. *)
Definition is_fetch (e : event) : bool :=
  match e with
  | EDownloader _ _ | EDownloadNotebooks _ => true
  | _ => false
  end.

(** The five steps of the data-preparation stage: loading, preprocessing,
    re-creation of the database, bulk write, constraints. *)
Definition is_prep_step (e : event) : bool :=
  match e with
  | EDataLoader _ _ | EPreprocessMk | ECreateNewDb _
  | EWriteTables _ | ESetForeignKeys _ => true
  | _ => false
  end.

(** Every call of the data-preparation stage on a collaborator. *)
Definition is_prep_call (e : event) : bool :=
  match e with
  | EDataLoader _ _ | EGetTablesDict | EGetConstraintsDf | EMkPreprocessor _ _
  | EPreprocessMk | ECreateNewDb _ | EWriteTables _ | ESetForeignKeys _ => true
  | _ => false
  end.

(** The same world with another answer of the archive folder. *)
Definition with_iterdir (w : World) (r : result (option string)) : World :=
  mkWorld (new_db_engine w) (db_exists w) (input w) r (new_data_loader w)
          (get_tables_dict w) (get_constraints_df w) (new_mk_preprocessor w)
          (preprocess_mk w) (create_new_db w) (write_tables w)
          (set_foreign_keys w) (get_nb_identifiers w) (set_order w)
          (new_downloader w) (download_notebooks w).

(** The same world in which the construction of the database handler
    raises [e]. *)
Definition with_connection_error (w : World) (e : exn) : World :=
  mkWorld (inl e) (db_exists w) (input w) (iterdir_next w) (new_data_loader w)
          (get_tables_dict w) (get_constraints_df w) (new_mk_preprocessor w)
          (preprocess_mk w) (create_new_db w) (write_tables w)
          (set_foreign_keys w) (get_nb_identifiers w) (set_order w)
          (new_downloader w) (download_notebooks w).

(** The spellings of the affirmative token that differ only in case. *)
Definition yes_spellings : list string :=
  ["yes"; "yeS"; "yEs"; "yES"; "Yes"; "YeS"; "YEs"; "YES"].

(** A world in which no collaborator raises: the database [db] exists or
    not, the operator types [ans], the archive folder shows [first] and the
    database knows the notebooks [ids]. *)
Definition quiet_world (db : bool) (ans : string) (first : option string)
  (ids : list string) : World :=
  mkWorld (inr tt) (inr db) (inr ans) (inr first) (inr tt) (inr ∅)
          (fun _ => inr []) (inr tt) (inr (∅, [])) (inr tt) (inr tt) (inr tt)
          (inr ids) (fun _ _ X => elements X) (inr tt) (inr tt).

Definition cfg0 : Config :=
  mkConfig "kaggle" "secret" "localhost" "3306" "kgtorrent" "/data/notebooks"
           "/data/constraints.csv" "/data/meta-kaggle" ["IPython Notebook HTML"].


(** Construction of the database handler and calls of its methods. *)
Definition is_db_call (e : event) : bool :=
  match e with
  | EDbEngine _ _ _ _ _ | EDbExists | ECreateNewDb _ | EWriteTables _
  | ESetForeignKeys _ | EGetNbIdentifiers _ => true
  | _ => false
  end.

(** [del db_engine]. *)
Definition is_del_db_engine (e : event) : bool :=
  match e with
  | EDel v => String.eqb v "db_engine"
  | _ => false
  end.

(** A monitor of the life of the database handler along a trace:
    [released] tells whether [del db_engine] has been seen.  The monitor
    accepts when the handler is deleted at most once, is not used after its
    deletion, and the downloader is used only after it. *)
Fixpoint handler_discipline (released : bool) (t : list event) : bool :=
  match t with
  | [] => true
  | e :: t' =>
      if is_del_db_engine e then negb released && handler_discipline true t'
      else if is_db_call e then negb released && handler_discipline released t'
      else if is_fetch e then released && handler_discipline released t'
      else handler_discipline released t'
  end.

(** The decision of the guard stage as a table of the command, the
    existence of the database, the line typed by the operator and the first
    entry of the archive folder. *)
Definition guard_table (c : Commands) (db : bool) (ans : string)
  (first : option string) : bool :=
  match c with
  | INIT | DOWNLOAD => negb db && negb (is_not_None first)
  | REFRESH => negb db || bool_decide (ans ∈ yes_spellings)
  end.

(** The same world with other answers of [write_tables] and of
    [get_nb_identifiers]. *)
Definition with_write_tables (w : World) (r : result unit) : World :=
  mkWorld (new_db_engine w) (db_exists w) (input w) (iterdir_next w)
          (new_data_loader w) (get_tables_dict w) (get_constraints_df w)
          (new_mk_preprocessor w) (preprocess_mk w) (create_new_db w) r
          (set_foreign_keys w) (get_nb_identifiers w) (set_order w)
          (new_downloader w) (download_notebooks w).

Definition with_nb_identifiers (w : World) (r : result (list string)) : World :=
  mkWorld (new_db_engine w) (db_exists w) (input w) (iterdir_next w)
          (new_data_loader w) (get_tables_dict w) (get_constraints_df w)
          (new_mk_preprocessor w) (preprocess_mk w) (create_new_db w)
          (write_tables w) (set_foreign_keys w) r (set_order w)
          (new_downloader w) (download_notebooks w).


(** The exception of an answer, if it is one. *)
Definition raised {A} (r : result A) : option exn :=
  match r with
  | inl e => Some e
  | inr _ => None
  end.

Definition is_get_constraints (e : event) : bool :=
  match e with
  | EGetConstraintsDf => true
  | _ => false
  end.

Definition count_get_constraints (t : list event) : nat :=
  List.length (List.filter is_get_constraints t).

(** The exception with which the world answers the call [ev], if it answers
    with one; [seen] is the number of calls of [get_constraints_df] made
    before.  Printing, [del], the sleep and the clock do not raise. *)
Definition answer_raises (w : World) (seen : nat) (ev : event) : option exn :=
  match ev with
  | EDbEngine _ _ _ _ _ => raised (new_db_engine w)
  | EDbExists => raised (db_exists w)
  | EInput _ => raised (input w)
  | EIterdir _ => raised (iterdir_next w)
  | EDataLoader _ _ => raised (new_data_loader w)
  | EGetTablesDict => raised (get_tables_dict w)
  | EGetConstraintsDf => raised (get_constraints_df w seen)
  | EMkPreprocessor _ _ => raised (new_mk_preprocessor w)
  | EPreprocessMk => raised (preprocess_mk w)
  | ECreateNewDb _ => raised (create_new_db w)
  | EWriteTables _ => raised (write_tables w)
  | ESetForeignKeys _ => raised (set_foreign_keys w)
  | EGetNbIdentifiers _ => raised (get_nb_identifiers w)
  | EDownloader _ _ => raised (new_downloader w)
  | EDownloadNotebooks _ => raised (download_notebooks w)
  | _ => None
  end.

(** A trace [t] that ends as [o] says is fail-stop in the world [w]: every
    call before the last one was answered with a value; when a call is
    answered with an exception, it is the last event of the trace and [o] is
    that exception; when no call raises, [o] is [None]. *)
Fixpoint fail_stop (w : World) (seen : nat) (t : list event) (o : option exn)
  : Prop :=
  match t with
  | [] => o = None
  | ev :: t' =>
      match answer_raises w seen ev with
      | Some e => t' = [] /\ o = Some e
      | None =>
          fail_stop w (if is_get_constraints ev then S seen else seen) t' o
      end
  end.

(** The events each part of [main] can produce. *)
Definition in_connect (e : event) : bool :=
  match e with
  | EPrint _ _ | EDbEngine _ _ _ _ _ => true
  | _ => false
  end.

Definition in_guard (e : event) : bool :=
  match e with
  | EPrint _ _ | EDbExists | EInput _ | EIterdir _ => true
  | _ => false
  end.

Definition in_preparation (e : event) : bool :=
  match e with
  | EPrint _ _ | EPrintStats _ | EDel _ => true
  | _ => is_prep_call e
  end.

Definition in_download (e : event) : bool :=
  match e with
  | EPrint _ _ | EPrintIdentifiers _ | EDel _ | EGetNbIdentifiers _ => true
  | _ => is_fetch e
  end.

(** The closing lines of [main]. *)
Definition in_closing (e : event) : bool :=
  match e with
  | ESleep | EPrint _ _ => true
  | _ => false
  end.

(** ** Laws of the monad *)

Lemma trace_bind {A B} (m : M A) (k : A -> M B) :
  trace (bind m k) =
  trace m ++ match outcome m with inr a => trace (k a) | inl _ => [] end.
Proof.
  destruct m as [t [e | a]]; cbn.
  - by rewrite app_nil_r.
  - by destruct (k a).
Qed.

Lemma outcome_bind {A B} (m : M A) (k : A -> M B) :
  outcome (bind m k) =
  match outcome m with inr a => outcome (k a) | inl e => inl e end.
Proof.
  destruct m as [t [e | a]]; cbn; [done |]. by destruct (k a).
Qed.

Lemma Forall_trace_bind {A B} (P : event -> Prop) (m : M A) (k : A -> M B) :
  Forall P (trace m) ->
  (forall a, outcome m = inr a -> Forall P (trace (k a))) ->
  Forall P (trace (bind m k)).
Proof.
  intros Hm Hk. rewrite trace_bind. apply Forall_app_2; [done |].
  destruct (outcome m); [constructor | by apply Hk].
Qed.

Lemma Forall_trace_call {A} (P : event -> Prop) (e : event) (r : result A) :
  P e -> Forall P (trace (call e r)).
Proof. intros He. by repeat constructor. Qed.

Lemma Forall_trace_ret {A} (P : event -> Prop) (a : A) :
  Forall P (trace (ret a)).
Proof. constructor. Qed.

Lemma filter_none (f : event -> bool) (g : event -> bool) (l : list event) :
  (forall e, g e = true -> f e = false) ->
  Forall (fun e => g e = true) l ->
  List.filter f l = [].
Proof.
  intros Hgf H. induction H as [| e l He _ IH]; cbn; [done |].
  by rewrite (Hgf e He).
Qed.

Lemma Commands_eqb_eq (a b : Commands) : Commands_eqb a b = true <-> a = b.
Proof. destruct a, b; cbn; split; congruence. Qed.

(** ** The alphabet of each stage *)

Ltac stage_alphabet :=
  repeat first
    [ apply Forall_trace_ret
    | apply Forall_trace_call; reflexivity
    | apply Forall_trace_bind; [| intros ? _]
    | match goal with |- context [if ?b then _ else _] => destruct b end ].

Lemma connect_alphabet cfg w :
  Forall (fun e => in_connect e = true) (trace (connect cfg w)).
Proof. unfold connect, print. stage_alphabet. Qed.

Lemma guard_alphabet cfg w c :
  Forall (fun e => in_guard e = true) (trace (check_user_variables cfg w c)).
Proof. unfold check_user_variables, print. cbv zeta. stage_alphabet. Qed.

Lemma preparation_alphabet cfg w :
  Forall (fun e => in_preparation e = true) (trace (data_preparation cfg w)).
Proof. unfold data_preparation, print. cbv zeta. stage_alphabet. Qed.

Lemma download_alphabet cfg w args :
  Forall (fun e => in_download e = true) (trace (notebook_download cfg w args)).
Proof. unfold notebook_download, print. stage_alphabet. Qed.

(** ** [main], stage by stage *)

Lemma connect_outcome cfg w :
  outcome (connect cfg w) =
  match new_db_engine w with inl e => inl e | inr _ => inr tt end.
Proof. unfold connect. by destruct (new_db_engine w). Qed.

Lemma connect_trace cfg w :
  exists t,
    trace (connect cfg w) =
    [EPrint stdout "************************";
     EPrint stdout "*** KGTORRENT STARTED***";
     EPrint stdout "************************";
     EPrint stdout (msg_connecting cfg);
     EDbEngine (db_username cfg) (db_password cfg) (db_host cfg)
               (db_port cfg) (db_name cfg)] ++ t
    /\ Forall (fun e => is_print e = true) t.
Proof.
  unfold connect. destruct (new_db_engine w); cbn; eexists; split;
    try reflexivity; repeat constructor.
Qed.

Lemma main_trace cfg w args :
  new_db_engine w = inr tt ->
  trace (main cfg w args) =
  trace (connect cfg w) ++ trace (check_user_variables cfg w (command args)) ++
  match outcome (check_user_variables cfg w (command args)) with
  | inr p => trace (run_stages cfg w args p)
  | inl _ => []
  end.
Proof.
  intros Hc. unfold main. cbv zeta.
  rewrite trace_bind, connect_outcome, Hc, trace_bind. reflexivity.
Qed.

Lemma main_outcome cfg w args :
  new_db_engine w = inr tt ->
  outcome (main cfg w args) =
  match outcome (check_user_variables cfg w (command args)) with
  | inr p => outcome (run_stages cfg w args p)
  | inl e => inl e
  end.
Proof.
  intros Hc. unfold main. cbv zeta.
  rewrite outcome_bind, connect_outcome, Hc, outcome_bind. reflexivity.
Qed.

Lemma main_connect_fails cfg w args e :
  new_db_engine w = inl e ->
  main cfg w args =
  ([EPrint stdout "************************";
    EPrint stdout "*** KGTORRENT STARTED***";
    EPrint stdout "************************";
    EPrint stdout (msg_connecting cfg);
    EDbEngine (db_username cfg) (db_password cfg) (db_host cfg)
              (db_port cfg) (db_name cfg)], inl e).
Proof. intros Hc. unfold main, connect. rewrite Hc. reflexivity. Qed.

Lemma run_stages_abort cfg w args :
  run_stages cfg w args false = ([ESleep; EPrint stdout msg_end], inr tt).
Proof. reflexivity. Qed.

Lemma entry_outcome cfg w args :
  outcome (entry cfg w args) = outcome (main cfg w args).
Proof.
  unfold entry. rewrite !outcome_bind. cbn.
  by destruct (outcome (main cfg w args)) as [? | []].
Qed.

Ltac world_cases w :=
  destruct (db_exists w) as [? | [|]];
  destruct (input w) as [? | ?];
  destruct (iterdir_next w) as [? | [? |]].

Ltac yes_cases :=
  repeat match goal with
  | |- context [String.eqb (lower ?a) ?y] => destruct (String.eqb (lower a) y)
  end.

(** ** [str.lower] against ["yes"] *)

Ltac ascii_cases c :=
  destruct c as [[] [] [] [] [] [] [] []]; vm_compute;
  let H := fresh in intros H; first [discriminate H | auto].

Lemma ascii_lower_y c : ascii_lower c = "y"%char -> c = "y"%char \/ c = "Y"%char.
Proof. ascii_cases c. Qed.

Lemma ascii_lower_e c : ascii_lower c = "e"%char -> c = "e"%char \/ c = "E"%char.
Proof. ascii_cases c. Qed.

Lemma ascii_lower_s c : ascii_lower c = "s"%char -> c = "s"%char \/ c = "S"%char.
Proof. ascii_cases c. Qed.

Ltac in_list :=
  repeat first [apply list_elem_of_here | apply list_elem_of_further].

Lemma lower_yes (ans : string) :
  String.eqb (lower ans) "yes" = true <-> ans ∈ yes_spellings.
Proof.
  rewrite String.eqb_eq. split.
  - destruct ans as [| c1 [| c2 [| c3 [| c4 r]]]]; cbn; try discriminate.
    intros H. injection H as H1 H2 H3.
    apply ascii_lower_y in H1. apply ascii_lower_e in H2.
    apply ascii_lower_s in H3.
    destruct H1 as [-> | ->], H2 as [-> | ->], H3 as [-> | ->];
      unfold yes_spellings; in_list.
  - unfold yes_spellings. intros H.
    repeat (apply elem_of_cons in H as [-> | H]; [reflexivity |]).
    by apply elem_of_nil in H.
Qed.

(** ** The guard stage, case by case *)

Lemma guard_store_absent cfg w c d :
  db_exists w = inr false -> iterdir_next w = inr d ->
  outcome (check_user_variables cfg w c) =
  inr (negb (is_not_None d && (Commands_eqb c INIT || Commands_eqb c DOWNLOAD))).
Proof.
  intros Hdb Hdir. unfold check_user_variables. rewrite Hdb, Hdir.
  by destruct d, c.
Qed.

Lemma guard_init_existing cfg w d :
  db_exists w = inr true -> iterdir_next w = inr d ->
  check_user_variables cfg w INIT =
  ([EDbExists;
    EPrint stderr (msg_already_exists cfg);
    EPrint stderr msg_name_in_use;
    EIterdir (nb_archive_path cfg)] ++
   (if is_not_None d
    then [EPrint stderr (msg_folder_not_empty cfg);
          EPrint stderr msg_empty_folder_please]
    else []),
   inr false).
Proof.
  intros Hdb Hdir. unfold check_user_variables. rewrite Hdb, Hdir.
  by destruct d.
Qed.

Lemma guard_download_existing cfg w d :
  db_exists w = inr true -> iterdir_next w = inr d ->
  check_user_variables cfg w DOWNLOAD =
  ([EDbExists;
    EPrint stdout (msg_only_download cfg);
    EIterdir (nb_archive_path cfg)] ++
   (if is_not_None d
    then [EPrint stderr (msg_folder_not_empty cfg);
          EPrint stderr msg_empty_folder_please]
    else []),
   inr false).
Proof.
  intros Hdb Hdir. unfold check_user_variables. rewrite Hdb, Hdir.
  by destruct d.
Qed.

Lemma guard_refresh_existing cfg w ans d :
  db_exists w = inr true -> input w = inr ans -> iterdir_next w = inr d ->
  check_user_variables cfg w REFRESH =
  ([EDbExists;
    EPrint stdout (msg_will_reinitialize cfg);
    EPrint stdout "and populate it with the provided MetaKaggle version.";
    EInput (msg_confirm cfg);
    EIterdir (nb_archive_path cfg)],
   inr (String.eqb (lower ans) "yes")).
Proof.
  intros Hdb Hin Hdir. unfold check_user_variables. rewrite Hdb, Hin, Hdir.
  cbn. by destruct (String.eqb (lower ans) "yes"), d.
Qed.

Lemma guard_reads_archive cfg w c b :
  db_exists w = inr b ->
  (b = true -> c = REFRESH -> exists ans, input w = inr ans) ->
  EIterdir (nb_archive_path cfg) ∈ trace (check_user_variables cfg w c) /\
  forall e, iterdir_next w = inl e ->
            outcome (check_user_variables cfg w c) = inl e.
Proof.
  intros Hdb Hin. unfold check_user_variables. rewrite Hdb.
  destruct b, c; try (destruct Hin as [ans ->]; [done | done |]);
    destruct (iterdir_next w) as [e | [x |]]; cbn; yes_cases; cbn;
    (split; [in_list | intros ? [= <-]; reflexivity]).
Qed.

Lemma guard_refresh_ignores_archive cfg w d d' :
  check_user_variables cfg (with_iterdir w (inr d)) REFRESH =
  check_user_variables cfg (with_iterdir w (inr d')) REFRESH.
Proof.
  unfold check_user_variables, with_iterdir. cbn.
  destruct (db_exists w) as [? | [|]]; cbn; [done | | by destruct d, d'].
  destruct (input w) as [? | ans]; cbn; [done |].
  by destruct (String.eqb (lower ans) "yes"), d, d'.
Qed.

(** ** Runs stop at the first failure *)

Lemma answer_raises_seen w s s' ev :
  is_get_constraints ev = false ->
  answer_raises w s ev = answer_raises w s' ev.
Proof. by destruct ev. Qed.


Lemma count_get_constraints_cons ev t :
  count_get_constraints (ev :: t) =
  (if is_get_constraints ev then 1 else 0) + count_get_constraints t.
Proof. unfold count_get_constraints. cbn. by destruct (is_get_constraints ev). Qed.

Lemma count_get_constraints_none (g : event -> bool) (t : list event) :
  (forall e, g e = true -> is_get_constraints e = false) ->
  Forall (fun e => g e = true) t ->
  count_get_constraints t = 0.
Proof.
  intros Hg Ht. unfold count_get_constraints.
  by rewrite (filter_none is_get_constraints g t Hg Ht).
Qed.

Lemma fail_stop_seen w s s' t o :
  count_get_constraints t = 0 -> fail_stop w s t o -> fail_stop w s' t o.
Proof.
  revert s s'. induction t as [| ev t IH]; intros s s' Hc H; [done |].
  rewrite count_get_constraints_cons in Hc.
  destruct (is_get_constraints ev) eqn:Eg; [done |].
  cbn in *. rewrite Eg in *.
  rewrite <- (answer_raises_seen w s s' ev Eg).
  destruct (answer_raises w s ev); [done |]. by apply (IH s).
Qed.

Lemma fail_stop_app w s t1 t2 o :
  fail_stop w s t1 None ->
  fail_stop w (s + count_get_constraints t1) t2 o ->
  fail_stop w s (t1 ++ t2) o.
Proof.
  revert s. induction t1 as [| ev t1 IH]; intros s H1 H2.
  - unfold count_get_constraints in H2. cbn in H2.
    by rewrite Nat.add_0_r in H2.
  - rewrite count_get_constraints_cons in H2. cbn in *.
    destruct (answer_raises w s ev); [by destruct H1 |].
    apply IH; [done |].
    destruct (is_get_constraints ev); cbn in *;
      [by rewrite Nat.add_succ_r in H2 | done].
Qed.

Lemma fail_stop_raised w s t e :
  fail_stop w s t (Some e) ->
  exists t0 ev,
    t = t0 ++ [ev] /\
    answer_raises w (s + count_get_constraints t0) ev = Some e /\
    fail_stop w s t0 None.
Proof.
  revert s. induction t as [| ev t IH]; intros s H; [done |].
  cbn in H. destruct (answer_raises w s ev) as [e' |] eqn:Ea.
  - destruct H as [-> [= ->]]. exists [], ev.
    unfold count_get_constraints. cbn. by rewrite Nat.add_0_r.
  - apply IH in H as (t0 & ev' & -> & Hev & Ht0).
    exists (ev :: t0), ev'. split; [done |].
    rewrite count_get_constraints_cons. cbn. rewrite Ea. split; [| done].
    destruct (is_get_constraints ev); cbn in *;
      [by rewrite Nat.add_succ_r | done].
Qed.

Lemma fail_stop_ret {A} w s (a : A) :
  fail_stop w s (trace (ret a)) (raised (outcome (ret a))).
Proof. reflexivity. Qed.

Lemma fail_stop_call {A} w s (ev : event) (r : result A) :
  answer_raises w s ev = raised r ->
  fail_stop w s (trace (call ev r)) (raised (outcome (call ev r))).
Proof. intros H. cbn. rewrite H. by destruct r. Qed.

Lemma fail_stop_bind {A B} w s (m : M A) (k : A -> M B) :
  fail_stop w s (trace m) (raised (outcome m)) ->
  (forall a, outcome m = inr a ->
     fail_stop w (s + count_get_constraints (trace m)) (trace (k a))
               (raised (outcome (k a)))) ->
  fail_stop w s (trace (bind m k)) (raised (outcome (bind m k))).
Proof.
  intros Hm Hk. rewrite trace_bind, outcome_bind.
  destruct (outcome m) as [e | a]; [by rewrite app_nil_r |].
  apply fail_stop_app; [exact Hm | by apply Hk].
Qed.

Ltac fail_stops :=
  repeat match goal with
  | |- fail_stop ?w ?s (trace (ret _)) _ => exact (fail_stop_ret w s _)
  | |- fail_stop ?w ?s (trace (call _ _)) _ =>
      apply (fail_stop_call w s); reflexivity
  | |- fail_stop ?w ?s (trace (bind _ _)) _ =>
      apply (fail_stop_bind w s); [| intros ? _; cbv beta]
  | |- context [if ?b then _ else _] => destruct b
  end.

Lemma connect_fail_stop cfg w s :
  fail_stop w s (trace (connect cfg w)) (raised (outcome (connect cfg w))).
Proof. unfold connect, print. fail_stops. Qed.

Lemma guard_fail_stop cfg w c s :
  fail_stop w s (trace (check_user_variables cfg w c))
            (raised (outcome (check_user_variables cfg w c))).
Proof. unfold check_user_variables, print. cbv zeta. fail_stops. Qed.

Lemma preparation_fail_stop cfg w :
  fail_stop w 0 (trace (data_preparation cfg w))
            (raised (outcome (data_preparation cfg w))).
Proof. unfold data_preparation, print. cbv zeta. fail_stops. Qed.

Lemma download_fail_stop cfg w args s :
  fail_stop w s (trace (notebook_download cfg w args))
            (raised (outcome (notebook_download cfg w args))).
Proof. unfold notebook_download, print. fail_stops. Qed.

Lemma run_stages_fail_stop cfg w args p :
  fail_stop w 0 (trace (run_stages cfg w args p))
            (raised (outcome (run_stages cfg w args p))).
Proof.
  unfold run_stages. apply fail_stop_bind.
  - destruct (p && negb (Commands_eqb (command args) DOWNLOAD))%bool;
      [apply preparation_fail_stop | apply fail_stop_ret].
  - intros _ _. apply fail_stop_bind.
    + destruct p; [apply download_fail_stop | apply fail_stop_ret].
    + intros _ _. unfold print. fail_stops.
Qed.

Lemma main_fail_stop cfg w args :
  fail_stop w 0 (trace (main cfg w args)) (raised (outcome (main cfg w args))).
Proof.
  unfold main. cbv zeta. apply fail_stop_bind; [apply connect_fail_stop |].
  intros _ _.
  rewrite (count_get_constraints_none in_connect _ ltac:(by intros [])
             (connect_alphabet cfg w)).
  apply fail_stop_bind; [apply guard_fail_stop |].
  intros p _.
  rewrite (count_get_constraints_none in_guard _ ltac:(by intros [])
             (guard_alphabet cfg w (command args))).
  apply run_stages_fail_stop.
Qed.

Lemma run_stages_returns cfg w args p :
  outcome (run_stages cfg w args p) = inr tt ->
  exists t, trace (run_stages cfg w args p) =
            t ++ [ESleep; EPrint stdout msg_end].
Proof.
  unfold run_stages.
  set (m1 := if (p && negb (Commands_eqb (command args) DOWNLOAD))%bool
             then data_preparation cfg w else ret tt).
  set (m2 := if p then notebook_download cfg w args else ret tt).
  intros H. rewrite outcome_bind in H.
  destruct (outcome m1) eqn:E1; [discriminate H |].
  rewrite outcome_bind in H.
  destruct (outcome m2) eqn:E2; [discriminate H |].
  rewrite trace_bind, E1, trace_bind, E2. cbn.
  exists (trace m1 ++ trace m2). by rewrite <- app_assoc.
Qed.

Lemma main_returns cfg w args :
  outcome (main cfg w args) = inr tt ->
  exists t, trace (main cfg w args) = t ++ [ESleep; EPrint stdout msg_end].
Proof.
  intros Ho.
  destruct (new_db_engine w) as [e | []] eqn:Hc.
  { by rewrite (main_connect_fails cfg w args e Hc) in Ho. }
  rewrite main_outcome in Ho by done. rewrite main_trace by done.
  destruct (outcome (check_user_variables cfg w (command args)))
    as [e | p]; [discriminate Ho |].
  destruct (run_stages_returns cfg w args p Ho) as [t ->].
  eexists. by rewrite !app_assoc.
Qed.

Lemma main_raises cfg w args e :
  outcome (main cfg w args) = inl e ->
  exists t ev,
    trace (main cfg w args) = t ++ [ev] /\
    answer_raises w (count_get_constraints t) ev = Some e /\
    fail_stop w 0 t None.
Proof.
  intros Ho. pose proof (main_fail_stop cfg w args) as Hs.
  rewrite Ho in Hs. by apply fail_stop_raised in Hs.
Qed.


(** ** The guard stage and what it gates *)

(** C1. When the guard stage leaves the Proceed Flag at false, the run of
    [main] contains no call of [create_new_db], [write_tables] or
    [set_foreign_keys], and the downloader is neither instantiated nor
    invoked; this holds for every command. *)
Theorem abort_runs_no_mutation cfg w args :
  guard_decides cfg w args false ->
  Forall (fun e => is_mutation e = false) (trace (main cfg w args)).
Proof.
  intros [Hc Hg].
  rewrite main_trace, Hg, run_stages_abort by done.
  repeat apply Forall_app_2.
  - eapply Forall_impl; [apply connect_alphabet |]. by intros [].
  - eapply Forall_impl; [apply guard_alphabet |]. by intros [].
  - repeat constructor.
Qed.

Lemma abort_runs_no_mutation_witness :
  guard_decides cfg0 (quiet_world true "" None []) (mkArgs INIT "HTTP" []) false
  /\ Forall (fun e => is_mutation e = false)
            (trace (main cfg0 (quiet_world true "" None [])
                         (mkArgs INIT "HTTP" []))).
Proof.
  assert (H : guard_decides cfg0 (quiet_world true "" None [])
                            (mkArgs INIT "HTTP" []) false)
    by (split; reflexivity).
  split; [exact H | exact (abort_runs_no_mutation _ _ _ H)].
Defined.

(** C2, as the code behaves.  With an existing database and the command
    DOWNLOAD, [proceed] keeps its initial value False: the guard stage
    announces that the notebooks will be downloaded and then aborts, whatever
    the archive folder contains; the run of [main] never queries the
    notebook identifiers and never reaches the downloader. *)
Theorem download_existing_store_aborts cfg w args d :
  command args = DOWNLOAD ->
  new_db_engine w = inr tt ->
  db_exists w = inr true ->
  iterdir_next w = inr d ->
  guard_decides cfg w args false /\
  (EPrint stdout (msg_only_download cfg) ∈ trace (main cfg w args)) /\
  (EGetNbIdentifiers (nb_conf_languages cfg) ∉ trace (main cfg w args)) /\
  Forall (fun e => is_fetch e = false) (trace (main cfg w args)) /\
  outcome (main cfg w args) = inr tt.
Proof.
  intros Hcmd Hc Hdb Hdir.
  assert (Hg : guard_decides cfg w args false).
  { split; [done |]. rewrite Hcmd.
    by rewrite (guard_download_existing cfg w d). }
  split; [exact Hg |].
  rewrite main_outcome, main_trace by done. destruct Hg as [_ ->].
  rewrite run_stages_abort, Hcmd, (guard_download_existing cfg w d) by done.
  split; [| split; [| split; [| reflexivity]]].
  - rewrite !elem_of_app. right; left. cbn. in_list.
  - intros H. rewrite !elem_of_app in H.
    destruct H as [H | [H | H]].
    + pose proof (connect_alphabet cfg w) as Ha.
      rewrite Forall_forall in Ha. by apply Ha in H.
    + cbn in H. destruct d; cbn in H;
        repeat (apply elem_of_cons in H as [H | H]; [discriminate H |]);
        by apply elem_of_nil in H.
    + cbn in H.
      repeat (apply elem_of_cons in H as [H | H]; [discriminate H |]).
      by apply elem_of_nil in H.
  - apply Forall_app_2.
    + eapply Forall_impl; [apply connect_alphabet |]. by intros [].
    + destruct d; cbn; repeat constructor.
Qed.

Lemma download_existing_store_aborts_witness :
  guard_decides cfg0 (quiet_world true "" None ["a"; "b"])
                (mkArgs DOWNLOAD "HTTP" ["a"]) false /\
  (EGetNbIdentifiers (nb_conf_languages cfg0) ∉
     trace (main cfg0 (quiet_world true "" None ["a"; "b"])
                 (mkArgs DOWNLOAD "HTTP" ["a"]))).
Proof.
  pose proof (download_existing_store_aborts cfg0
                (quiet_world true "" None ["a"; "b"])
                (mkArgs DOWNLOAD "HTTP" ["a"]) None
                eq_refl eq_refl eq_refl eq_refl) as (H1 & _ & H3 & _).
  exact (conj H1 H3).
Defined.




(** C5. REFRESH against an existing database: the guard stage decides
    PROCEED exactly when the line typed by the operator is ["yes"] in some
    mixture of upper and lower case, and ABORT for every other line, the
    empty one included. *)
Theorem refresh_confirmation cfg w ans d :
  db_exists w = inr true ->
  input w = inr ans ->
  iterdir_next w = inr d ->
  (outcome (check_user_variables cfg w REFRESH) = inr true
   <-> ans ∈ yes_spellings) /\
  (outcome (check_user_variables cfg w REFRESH) = inr false
   <-> ans ∉ yes_spellings) /\
  (ans = "" -> outcome (check_user_variables cfg w REFRESH) = inr false).
Proof.
  intros Hdb Hin Hdir.
  rewrite (guard_refresh_existing cfg w ans d) by done. cbn.
  rewrite <- lower_yes.
  destruct (String.eqb (lower ans) "yes") eqn:E.
  - repeat split; try done. intros ->. discriminate E.
  - repeat split; try done; intros H; try discriminate H; by injection H.
Qed.

Lemma refresh_confirmation_witness :
  outcome (check_user_variables cfg0 (quiet_world true "YeS" None []) REFRESH)
  = inr true <-> "YeS" ∈ yes_spellings.
Proof.
  exact (proj1 (refresh_confirmation cfg0 (quiet_world true "YeS" None [])
                  "YeS" None eq_refl eq_refl eq_refl)).
Defined.

(** C6. With an entry in the archive folder, INIT and DOWNLOAD are aborted
    whether the database exists or not; for REFRESH the guard stage prints
    and decides exactly what it does with an empty folder. *)
Theorem nonempty_archive_aborts cfg w b first :
  db_exists w = inr b ->
  iterdir_next w = inr (Some first) ->
  outcome (check_user_variables cfg w INIT) = inr false /\
  outcome (check_user_variables cfg w DOWNLOAD) = inr false /\
  check_user_variables cfg w REFRESH =
  check_user_variables cfg (with_iterdir w (inr None)) REFRESH.
Proof.
  intros Hdb Hdir. split; [| split].
  - destruct b.
    + by rewrite (guard_init_existing cfg w (Some first)).
    + by rewrite (guard_store_absent cfg w INIT (Some first)).
  - destruct b.
    + by rewrite (guard_download_existing cfg w (Some first)).
    + by rewrite (guard_store_absent cfg w DOWNLOAD (Some first)).
  - rewrite <- (guard_refresh_ignores_archive cfg w (Some first) None).
    f_equal. destruct w; cbn in *. by subst.
Qed.

Lemma nonempty_archive_aborts_witness :
  outcome (check_user_variables cfg0
             (quiet_world false "" (Some "old.ipynb") []) INIT) = inr false /\
  outcome (check_user_variables cfg0
             (quiet_world false "" (Some "old.ipynb") []) DOWNLOAD) = inr false.
Proof.
  pose proof (nonempty_archive_aborts cfg0
                (quiet_world false "" (Some "old.ipynb") []) false "old.ipynb"
                eq_refl eq_refl) as (H1 & H2 & _).
  exact (conj H1 H2).
Defined.

(** C7, as stated, fails: after the report that the database exists, INIT
    still inspects the archive folder. *)
Lemma init_existing_store_counterexample :
  db_exists (quiet_world true "" None []) = inr true /\
  trace (check_user_variables cfg0 (quiet_world true "" None []) INIT) =
  [EDbExists;
   EPrint stderr (msg_already_exists cfg0);
   EPrint stderr msg_name_in_use;
   EIterdir "/data/notebooks"].
Proof. split; reflexivity. Qed.

(** C7, amended.  INIT against an existing database: the guard stage
    reports on standard error that the name is in use, then still reads the
    archive folder.  When that reading answers, the decision is ABORT, and a
    non-empty folder is reported as well; when it raises, the exception ends
    the guard stage without a decision. *)
Theorem init_existing_store_aborts cfg w :
  db_exists w = inr true ->
  (forall d, iterdir_next w = inr d ->
     check_user_variables cfg w INIT =
     ([EDbExists;
       EPrint stderr (msg_already_exists cfg);
       EPrint stderr msg_name_in_use;
       EIterdir (nb_archive_path cfg)] ++
      (if is_not_None d
       then [EPrint stderr (msg_folder_not_empty cfg);
             EPrint stderr msg_empty_folder_please]
       else []),
      inr false)) /\
  (forall e, iterdir_next w = inl e ->
     check_user_variables cfg w INIT =
     ([EDbExists;
       EPrint stderr (msg_already_exists cfg);
       EPrint stderr msg_name_in_use;
       EIterdir (nb_archive_path cfg)],
      inl e)).
Proof.
  intros Hdb. split.
  - intros d Hdir. by apply guard_init_existing.
  - intros e Hdir. unfold check_user_variables. by rewrite Hdb, Hdir.
Qed.

Lemma init_existing_store_aborts_witness :
  check_user_variables cfg0 (quiet_world true "" (Some "old.ipynb") []) INIT =
  ([EDbExists;
    EPrint stderr (msg_already_exists cfg0);
    EPrint stderr msg_name_in_use;
    EIterdir "/data/notebooks";
    EPrint stderr (msg_folder_not_empty cfg0);
    EPrint stderr msg_empty_folder_please],
   inr false).
Proof.
  exact (proj1 (init_existing_store_aborts cfg0
                  (quiet_world true "" (Some "old.ipynb") []) eq_refl)
               (Some "old.ipynb") eq_refl).
Defined.

(** C9. Whatever the command, the strategy and the filter, the first call
    that [main] makes besides printing is the construction of the database
    handler; when that construction raises, the run ends with the same
    exception and none of the guard checks has been made. *)
Theorem connection_precedes_guard cfg w args :
  (exists t1 t2,
     trace (main cfg w args) =
     t1 ++ EDbEngine (db_username cfg) (db_password cfg) (db_host cfg)
                     (db_port cfg) (db_name cfg) :: t2 /\
     Forall (fun e => is_print e = true) t1) /\
  (forall e, new_db_engine w = inl e ->
     outcome (main cfg w args) = inl e /\
     Forall (fun e => is_guard_check e = false) (trace (main cfg w args))).
Proof.
  split.
  - destruct (new_db_engine w) as [e | []] eqn:Hc.
    + rewrite (main_connect_fails cfg w args e Hc).
      eexists [_; _; _; _], []. split; [reflexivity | repeat constructor].
    + rewrite main_trace by done.
      destruct (connect_trace cfg w) as (t & -> & _).
      eexists [_; _; _; _], _. split; [reflexivity | repeat constructor].
  - intros e Hc. rewrite (main_connect_fails cfg w args e Hc).
    split; [reflexivity | repeat constructor].
Qed.

Lemma connection_precedes_guard_witness :
  outcome (main cfg0 (with_connection_error (quiet_world false "" None [])
                                            (Raised "OperationalError"))
                (mkArgs INIT "HTTP" [])) = inl (Raised "OperationalError").
Proof.
  exact (proj1 (proj2 (connection_precedes_guard cfg0
                         (with_connection_error (quiet_world false "" None [])
                                                (Raised "OperationalError"))
                         (mkArgs INIT "HTTP" []))
                      (Raised "OperationalError") eq_refl)).
Defined.

(** C10. Once the database handler is constructed and has answered the
    existence check (and the operator the confirmation, where one is asked),
    every command reads the archive folder, REFRESH included, and an
    exception of that reading ends the guard stage and the run.  For REFRESH
    the answer of the folder changes nothing in the guard stage; for INIT and
    DOWNLOAD against an absent database it decides between PROCEED (empty)
    and ABORT (an entry). *)
Theorem archive_read_by_every_command cfg w args b :
  new_db_engine w = inr tt ->
  db_exists w = inr b ->
  (b = true -> command args = REFRESH -> exists ans, input w = inr ans) ->
  (EIterdir (nb_archive_path cfg) ∈ trace (main cfg w args)) /\
  (forall e, iterdir_next w = inl e ->
     outcome (check_user_variables cfg w (command args)) = inl e /\
     outcome (main cfg w args) = inl e) /\
  (forall d d',
     check_user_variables cfg (with_iterdir w (inr d)) REFRESH =
     check_user_variables cfg (with_iterdir w (inr d')) REFRESH) /\
  (b = false -> command args <> REFRESH -> forall first,
     outcome (check_user_variables cfg (with_iterdir w (inr None))
                                   (command args)) = inr true /\
     outcome (check_user_variables cfg (with_iterdir w (inr (Some first)))
                                   (command args)) = inr false).
Proof.
  intros Hc Hdb Hin.
  destruct (guard_reads_archive cfg w (command args) b Hdb Hin) as [Hr He].
  split; [| split; [| split]].
  - rewrite main_trace by done. rewrite !elem_of_app. right; by left.
  - intros e Hdir. split; [by apply He |].
    rewrite main_outcome by done. by rewrite (He e Hdir).
  - apply guard_refresh_ignores_archive.
  - intros -> Hcmd first. split.
    + rewrite (guard_store_absent cfg _ _ None) by done.
      by destruct (command args).
    + rewrite (guard_store_absent cfg _ _ (Some first)) by done.
      by destruct (command args).
Qed.

Lemma archive_read_by_every_command_witness :
  EIterdir (nb_archive_path cfg0) ∈
    trace (main cfg0 (quiet_world true "no" None [])
                (mkArgs REFRESH "SKIP" [])).
Proof.
  exact (proj1 (archive_read_by_every_command cfg0
                  (quiet_world true "no" None []) (mkArgs REFRESH "SKIP" [])
                  true eq_refl eq_refl
                  (fun _ _ => ex_intro _ "no" eq_refl))).
Defined.

(** ** The stages of a proceeding run *)

Lemma run_stages_proceed cfg w args :
  exists t,
    trace (run_stages cfg w args true) =
    (if Commands_eqb (command args) DOWNLOAD then []
     else trace (data_preparation cfg w)) ++ t /\
    Forall (fun e => in_download e = true \/ in_closing e = true) t /\
    ((command args <> DOWNLOAD -> outcome (data_preparation cfg w) = inr tt) ->
     t = trace (notebook_download cfg w args) ++
         match outcome (notebook_download cfg w args) with
         | inr _ => [ESleep; EPrint stdout msg_end]
         | inl _ => []
         end).
Proof.
  assert (Hd : Forall (fun e => in_download e = true \/ in_closing e = true)
                 (trace (notebook_download cfg w args) ++
                  match outcome (notebook_download cfg w args) with
                  | inr _ => [ESleep; EPrint stdout msg_end]
                  | inl _ => []
                  end)).
  { apply Forall_app_2.
    - eapply Forall_impl; [apply download_alphabet |]. by left.
    - destruct (outcome (notebook_download cfg w args));
        repeat constructor; by right. }
  unfold run_stages. rewrite trace_bind. cbn [andb].
  destruct (Commands_eqb (command args) DOWNLOAD) eqn:E; cbn [negb].
  - cbn [outcome ret snd trace fst app]. rewrite trace_bind.
    eexists; split; [reflexivity |]. split; [exact Hd |].
    intros _. by destruct (outcome (notebook_download cfg w args)).
  - destruct (outcome (data_preparation cfg w)) as [e | []] eqn:Hp.
    + exists []. split; [reflexivity |]. split; [constructor |].
      intros H. exfalso.
      assert (Hne : command args <> DOWNLOAD).
      { intros Hcmd. apply Commands_eqb_eq in Hcmd. congruence. }
      specialize (H Hne). discriminate H.
    + rewrite trace_bind. eexists; split; [reflexivity |].
      split; [exact Hd |].
      intros _. by destruct (outcome (notebook_download cfg w args)).
Qed.

Lemma notebook_download_fetches cfg w args S :
  get_nb_identifiers w = inr S ->
  List.filter is_fetch (trace (notebook_download cfg w args)) =
  if String.eqb (strategy args) "SKIP" then []
  else EDownloader (download_identifiers w S (matching args))
                   (nb_archive_path cfg)
       :: match new_downloader w with
          | inr _ => [EDownloadNotebooks (strategy args)]
          | inl _ => []
          end.
Proof.
  intros HS. unfold notebook_download. rewrite HS.
  destruct (String.eqb (strategy args) "SKIP"); [reflexivity |].
  by destruct (new_downloader w), (download_notebooks w).
Qed.

Lemma data_preparation_calls cfg w tables c0 processed c1 :
  new_data_loader w = inr tt ->
  get_tables_dict w = inr tables ->
  get_constraints_df w 0 = inr c0 ->
  new_mk_preprocessor w = inr tt ->
  preprocess_mk w = inr processed ->
  create_new_db w = inr tt ->
  write_tables w = inr tt ->
  get_constraints_df w 1 = inr c1 ->
  List.filter is_prep_call (trace (data_preparation cfg w)) =
  [EDataLoader (constraints_file_path cfg) (meta_kaggle_path cfg);
   EGetTablesDict;
   EGetConstraintsDf;
   EMkPreprocessor tables c0;
   EPreprocessMk;
   ECreateNewDb true;
   EWriteTables (fst processed);
   EGetConstraintsDf;
   ESetForeignKeys c1].
Proof.
  intros H1 H2 H3 H4 H5 H6 H7 H8. unfold data_preparation.
  rewrite H1, H2, H3, H4, H5, H6, H7, H8.
  by destruct (set_foreign_keys w).
Qed.

Lemma filter_steps_of_calls (l : list event) :
  List.filter is_prep_step (List.filter is_prep_call l) =
  List.filter is_prep_step l.
Proof.
  induction l as [| e l IH]; [done |].
  cbn. destruct e; cbn; by rewrite ?IH.
Qed.

(** ** Selection of the notebooks *)

Lemma download_identifiers_spec w S Mf :
  faithful_order w ->
  NoDup (download_identifiers w S Mf) /\
  forall x, x ∈ download_identifiers w S Mf <-> x ∈ S /\ x ∈ Mf.
Proof.
  intros Hw. unfold download_identifiers. split.
  - rewrite (Hw _). apply NoDup_elements.
  - intros x. rewrite (Hw _), elem_of_elements, elem_of_intersection.
    by rewrite !elem_of_list_to_set.
Qed.

(** C4. In a proceeding run whose strategy is not SKIP, the only uses of
    the downloader are one instantiation, on a list without repetition whose
    elements are exactly the identifiers that the database returned and that
    the match filter names, followed by one invocation.  For the identifiers
    a, b, c and the filter b, c, d the list holds b and c; for an empty
    filter it is empty and the downloader is still instantiated on it. *)
Theorem dispatch_is_intersection cfg w args S :
  faithful_order w ->
  guard_decides cfg w args true ->
  (command args <> DOWNLOAD -> outcome (data_preparation cfg w) = inr tt) ->
  get_nb_identifiers w = inr S ->
  strategy args <> "SKIP" ->
  exists l,
    List.filter is_fetch (trace (main cfg w args)) =
    EDownloader l (nb_archive_path cfg)
    :: match new_downloader w with
       | inr _ => [EDownloadNotebooks (strategy args)]
       | inl _ => []
       end /\
    NoDup l /\
    (forall x, x ∈ l <-> x ∈ S /\ x ∈ matching args) /\
    (matching args = [] -> l = []) /\
    (S = ["a"; "b"; "c"] -> matching args = ["b"; "c"; "d"] ->
     l ≡ₚ ["b"; "c"]).
Proof.
  intros Hw [Hc Hg] Hp HS Hs.
  destruct (download_identifiers_spec w S (matching args) Hw) as [Hnd Hin].
  exists (download_identifiers w S (matching args)).
  split; [| split; [exact Hnd | split; [exact Hin | split]]].
  - rewrite main_trace, Hg by done.
    destruct (run_stages_proceed cfg w args) as (t & -> & _ & Ht).
    rewrite (Ht Hp). rewrite !List.filter_app.
    rewrite (filter_none is_fetch in_connect _ ltac:(by intros [])
               (connect_alphabet cfg w)).
    rewrite (filter_none is_fetch in_guard _ ltac:(by intros [])
               (guard_alphabet cfg w (command args))).
    assert (Hprep : List.filter is_fetch
                      (if Commands_eqb (command args) DOWNLOAD then []
                       else trace (data_preparation cfg w)) = []).
    { destruct (Commands_eqb (command args) DOWNLOAD); [done |].
      apply (filter_none _ in_preparation); [by intros [] |].
      apply preparation_alphabet. }
    rewrite Hprep, (notebook_download_fetches cfg w args S HS).
    apply String.eqb_neq in Hs. rewrite Hs. cbn [app].
    destruct (outcome (notebook_download cfg w args)); cbn;
      by rewrite app_nil_r.
  - intros HM. apply elem_of_nil_inv. intros x Hx.
    apply Hin in Hx as [_ Hx]. rewrite HM in Hx. by apply elem_of_nil in Hx.
  - intros -> HM. rewrite HM in *.
    apply NoDup_Permutation; [exact Hnd | |].
    + apply NoDup_cons. split; [| apply NoDup_singleton].
      rewrite elem_of_cons, elem_of_nil. by intros [? | []].
    + intros x. rewrite Hin, !elem_of_cons, !elem_of_nil. intuition congruence.
Qed.

Lemma dispatch_is_intersection_witness :
  exists l,
    List.filter is_fetch
      (trace (main cfg0 (quiet_world false "" None ["a"; "b"; "c"])
                   (mkArgs INIT "HTTP" ["b"; "c"; "d"]))) =
    [EDownloader l "/data/notebooks"; EDownloadNotebooks "HTTP"] /\
    l ≡ₚ ["b"; "c"].
Proof.
  assert (Hw : faithful_order (quiet_world false "" None ["a"; "b"; "c"]))
    by (intros X; reflexivity).
  assert (Hg : guard_decides cfg0 (quiet_world false "" None ["a"; "b"; "c"])
                 (mkArgs INIT "HTTP" ["b"; "c"; "d"]) true)
    by (split; reflexivity).
  destruct (dispatch_is_intersection cfg0
              (quiet_world false "" None ["a"; "b"; "c"])
              (mkArgs INIT "HTTP" ["b"; "c"; "d"]) ["a"; "b"; "c"]
              Hw Hg (fun _ => eq_refl) eq_refl
              ltac:(discriminate)) as (l & H1 & _ & _ & _ & H5).
  exists l. split; [exact H1 | exact (H5 eq_refl eq_refl)].
Defined.

(** ** Order of the data-preparation stage *)

(** C8. In a proceeding run of INIT or REFRESH in which the calls of the
    data-preparation stage answer, the loader is constructed, the
    preprocessor is run, the database is re-created with
    [drop_if_exists=True], the tables are written and the foreign keys are
    set, once each and in this order; the constraints come after the bulk
    write. *)
Theorem preparation_steps_in_order cfg w args tables c0 processed c1 :
  guard_decides cfg w args true ->
  command args <> DOWNLOAD ->
  new_data_loader w = inr tt ->
  get_tables_dict w = inr tables ->
  get_constraints_df w 0 = inr c0 ->
  new_mk_preprocessor w = inr tt ->
  preprocess_mk w = inr processed ->
  create_new_db w = inr tt ->
  write_tables w = inr tt ->
  get_constraints_df w 1 = inr c1 ->
  List.filter is_prep_step (trace (main cfg w args)) =
  [EDataLoader (constraints_file_path cfg) (meta_kaggle_path cfg);
   EPreprocessMk;
   ECreateNewDb true;
   EWriteTables (fst processed);
   ESetForeignKeys c1] /\
  List.filter is_prep_call (trace (main cfg w args)) =
  [EDataLoader (constraints_file_path cfg) (meta_kaggle_path cfg);
   EGetTablesDict;
   EGetConstraintsDf;
   EMkPreprocessor tables c0;
   EPreprocessMk;
   ECreateNewDb true;
   EWriteTables (fst processed);
   EGetConstraintsDf;
   ESetForeignKeys c1].
Proof.
  intros [Hc Hg] Hcmd H1 H2 H3 H4 H5 H6 H7 H8.
  assert (Hcalls :
    List.filter is_prep_call (trace (main cfg w args)) =
    List.filter is_prep_call (trace (data_preparation cfg w))).
  { rewrite main_trace, Hg by done.
    destruct (run_stages_proceed cfg w args) as (t & -> & Ht & _).
    assert (E : Commands_eqb (command args) DOWNLOAD = false).
    { destruct (Commands_eqb (command args) DOWNLOAD) eqn:E; [| done].
      by apply Commands_eqb_eq in E. }
    rewrite E, !List.filter_app.
    rewrite (filter_none is_prep_call in_connect _ ltac:(by intros [])
               (connect_alphabet cfg w)).
    rewrite (filter_none is_prep_call in_guard _ ltac:(by intros [])
               (guard_alphabet cfg w (command args))).
    rewrite (filter_none is_prep_call
               (fun e => in_download e || in_closing e) t).
    - by rewrite app_nil_r.
    - intros e. by destruct e.
    - eapply Forall_impl; [exact Ht |]. intros e [-> | ->]; [done |].
      by rewrite orb_true_r. }
  split; [| by rewrite Hcalls, (data_preparation_calls cfg w tables c0 processed c1)].
  rewrite <- filter_steps_of_calls, Hcalls.
  by rewrite (data_preparation_calls cfg w tables c0 processed c1).
Qed.

Lemma preparation_steps_in_order_witness :
  List.filter is_prep_step
    (trace (main cfg0 (quiet_world false "" None []) (mkArgs INIT "SKIP" []))) =
  [EDataLoader "/data/constraints.csv" "/data/meta-kaggle";
   EPreprocessMk;
   ECreateNewDb true;
   EWriteTables ∅;
   ESetForeignKeys []].
Proof.
  assert (Hg : guard_decides cfg0 (quiet_world false "" None [])
                 (mkArgs INIT "SKIP" []) true)
    by (split; reflexivity).
  exact (proj1 (preparation_steps_in_order cfg0
                  (quiet_world false "" None []) (mkArgs INIT "SKIP" [])
                  ∅ [] (∅, []) [] Hg ltac:(discriminate)
                  eq_refl eq_refl eq_refl eq_refl eq_refl eq_refl eq_refl
                  eq_refl)).
Defined.

(** ** Further properties of the controller *)

Lemma run_stages_outcome cfg w args p :
  outcome (run_stages cfg w args p) =
  match (if (p && negb (Commands_eqb (command args) DOWNLOAD))%bool
         then outcome (data_preparation cfg w) else inr tt) with
  | inl e => inl e
  | inr _ =>
      match (if p then outcome (notebook_download cfg w args) else inr tt) with
      | inl e => inl e
      | inr _ => inr tt
      end
  end.
Proof.
  unfold run_stages. rewrite !outcome_bind.
  destruct (p && negb (Commands_eqb (command args) DOWNLOAD))%bool.
  - destruct (outcome (data_preparation cfg w)); [done |].
    destruct p; [| done].
    by destruct (outcome (notebook_download cfg w args)).
  - cbn [outcome ret snd]. destruct p; [| done].
    by destruct (outcome (notebook_download cfg w args)).
Qed.

Lemma run_stages_cases cfg w args p :
  exists t,
    trace (run_stages cfg w args p) =
    (if (p && negb (Commands_eqb (command args) DOWNLOAD))%bool
     then trace (data_preparation cfg w) else []) ++ t /\
    (t = [] \/
     t = (if p then trace (notebook_download cfg w args) else []) ++
         match (if p then outcome (notebook_download cfg w args)
                else inr tt) with
         | inr _ => [ESleep; EPrint stdout msg_end]
         | inl _ => []
         end).
Proof.
  unfold run_stages. rewrite trace_bind.
  destruct (p && negb (Commands_eqb (command args) DOWNLOAD))%bool.
  - destruct (outcome (data_preparation cfg w)).
    + eexists; split; [reflexivity | by left].
    + eexists; split; [reflexivity | right].
      rewrite trace_bind. destruct p; [| reflexivity].
      by destruct (outcome (notebook_download cfg w args)).
  - cbn [outcome ret snd trace fst app]. eexists; split; [reflexivity | right].
    rewrite trace_bind. destruct p; [| reflexivity].
    by destruct (outcome (notebook_download cfg w args)).
Qed.

(** Every trace of [main] is a prefix made by the connection, the guard
    stage and the data preparation, followed by nothing, by the closing
    lines, or by the download stage and, when it returns, the closing
    lines. *)
Lemma main_shape cfg w args :
  exists pre t,
    trace (main cfg w args) = pre ++ t /\
    Forall (fun e => (in_connect e || in_guard e
                      || (in_preparation e
                          && negb (Commands_eqb (command args) DOWNLOAD)))%bool
                     = true) pre /\
    (t = [] \/ t = [ESleep; EPrint stdout msg_end] \/
     (outcome (check_user_variables cfg w (command args)) = inr true /\
      t = trace (notebook_download cfg w args) ++
          match outcome (notebook_download cfg w args) with
          | inr _ => [ESleep; EPrint stdout msg_end]
          | inl _ => []
          end)).
Proof.
  assert (Hcg : forall l,
    Forall (fun e => in_connect e = true) l \/
    Forall (fun e => in_guard e = true) l ->
    Forall (fun e => (in_connect e || in_guard e
                      || (in_preparation e
                          && negb (Commands_eqb (command args) DOWNLOAD)))%bool
                     = true) l).
  { intros l [H | H]; (eapply Forall_impl; [exact H |]); intros e He;
      cbv beta in *; rewrite He; [done | by rewrite orb_true_r]. }
  destruct (new_db_engine w) as [e | []] eqn:Hc.
  { exists (trace (main cfg w args)), []. rewrite app_nil_r.
    split; [done |]. split; [| by left].
    rewrite (main_connect_fails cfg w args e Hc). repeat constructor. }
  rewrite main_trace by done.
  destruct (outcome (check_user_variables cfg w (command args)))
    as [e | p] eqn:Hg.
  { exists (trace (connect cfg w) ++
            trace (check_user_variables cfg w (command args))), [].
    split; [by rewrite !app_nil_r |].
    split; [| by left].
    apply Forall_app_2; apply Hcg;
      [left; apply connect_alphabet | right; apply guard_alphabet]. }
  destruct (run_stages_cases cfg w args p) as (t & -> & Ht).
  exists (trace (connect cfg w) ++
          trace (check_user_variables cfg w (command args)) ++
          (if (p && negb (Commands_eqb (command args) DOWNLOAD))%bool
           then trace (data_preparation cfg w) else [])), t.
  split; [by rewrite <- !app_assoc |]. split.
  - repeat apply Forall_app_2.
    + apply Hcg. left. apply connect_alphabet.
    + apply Hcg. right. apply guard_alphabet.
    + destruct p; cbn [andb]; [| constructor].
      destruct (Commands_eqb (command args) DOWNLOAD); cbn [negb];
        [constructor |].
      eapply Forall_impl; [apply preparation_alphabet |].
      intros e He. cbv beta in *. rewrite He. cbn.
      by rewrite orb_true_r.
  - destruct Ht as [-> | ->]; [by left |].
    destruct p; [right; right; by split | right; by left].
Qed.

Lemma guard_true_inv cfg w c :
  outcome (check_user_variables cfg w c) = inr true ->
  db_exists w = inr false \/
  (c = REFRESH /\ exists ans, input w = inr ans /\ ans ∈ yes_spellings).
Proof.
  unfold check_user_variables.
  destruct (db_exists w) as [e | [|]]; [done | | by left].
  intros H. right.
  destruct c; cbn in H.
  - destruct (iterdir_next w) as [? | [? |]]; by cbn in H.
  - split; [done |]. destruct (input w) as [? | ans]; [done |].
    exists ans. split; [done |]. apply lower_yes. cbn in H.
    destruct (String.eqb (lower ans) "yes"); [done |].
    destruct (iterdir_next w) as [? | [? |]]; by cbn in H.
  - destruct (iterdir_next w) as [? | [? |]]; by cbn in H.
Qed.





Lemma preparation_drops cfg w :
  Forall (fun e => match e with ECreateNewDb b => b | _ => true end = true)
         (trace (data_preparation cfg w)).
Proof. unfold data_preparation, print. cbv zeta. stage_alphabet. Qed.

Lemma discipline_prefix (p q : list event) :
  Forall (fun e => (is_fetch e || is_del_db_engine e)%bool = false) p ->
  handler_discipline false (p ++ q) = handler_discipline false q.
Proof.
  induction 1 as [| e p He _ IH]; [done |].
  apply orb_false_elim in He as [Hf Hd]. cbn. rewrite Hd, Hf, IH.
  by destruct (is_db_call e).
Qed.

Lemma download_discipline cfg w args :
  handler_discipline false
    (trace (notebook_download cfg w args) ++
     match outcome (notebook_download cfg w args) with
     | inr _ => [ESleep; EPrint stdout msg_end]
     | inl _ => []
     end) = true.
Proof.
  unfold notebook_download.
  destruct (get_nb_identifiers w); [reflexivity |].
  destruct (String.eqb (strategy args) "SKIP"); [reflexivity |].
  by destruct (new_downloader w) as [? | []],
              (download_notebooks w) as [? | []].
Qed.

(** X1. The guard stage only reports and observes.  Its observations are
    the existence check, then -- only for REFRESH against an existing
    database -- one prompt of the operator, then the reading of the archive
    folder; an observation that raises ends the sequence. *)
Theorem guard_stage_observations cfg w c :
  Forall (fun e => in_guard e = true) (trace (check_user_variables cfg w c)) /\
  List.filter is_guard_check (trace (check_user_variables cfg w c)) =
  EDbExists ::
  match db_exists w with
  | inl _ => []
  | inr b =>
      if (b && Commands_eqb c REFRESH)%bool
      then EInput (msg_confirm cfg) ::
           match input w with
           | inl _ => []
           | inr _ => [EIterdir (nb_archive_path cfg)]
           end
      else [EIterdir (nb_archive_path cfg)]
  end.
Proof.
  split; [apply guard_alphabet |].
  unfold check_user_variables.
  destruct c; world_cases w; cbn; yes_cases; reflexivity.
Qed.

(** X2. When its observations answer, the guard stage decides by this
    table: INIT and DOWNLOAD proceed exactly when the database does not
    exist and the archive folder is empty; REFRESH proceeds exactly when the
    database does not exist or the operator typed yes in any case. *)
Theorem guard_decision_table cfg w c b ans first :
  db_exists w = inr b ->
  (b = true -> c = REFRESH -> input w = inr ans) ->
  iterdir_next w = inr first ->
  outcome (check_user_variables cfg w c) = inr (guard_table c b ans first).
Proof.
  intros Hdb Hin Hdir. destruct b.
  - destruct c.
    + by rewrite (guard_init_existing cfg w first).
    + rewrite (guard_refresh_existing cfg w ans first) by auto.
      cbn. f_equal.
      destruct (String.eqb (lower ans) "yes") eqn:E; symmetry.
      * apply bool_decide_eq_true. by apply lower_yes.
      * apply bool_decide_eq_false. rewrite <- lower_yes. by rewrite E.
    + by rewrite (guard_download_existing cfg w first).
  - rewrite (guard_store_absent cfg w c first) by done.
    by destruct c, first.
Qed.

Lemma guard_decision_table_witness :
  outcome (check_user_variables cfg0 (quiet_world true "YES" (Some "x") [])
                                REFRESH) = inr true.
Proof.
  exact (guard_decision_table cfg0 (quiet_world true "YES" (Some "x") [])
           REFRESH true "YES" (Some "x") eq_refl (fun _ _ => eq_refl) eq_refl).
Defined.

(** X3. DOWNLOAD never enters the data-preparation stage: whatever the
    collaborators answer, its run constructs no loader and no preprocessor
    and neither re-creates nor writes the database. *)
Theorem download_never_prepares cfg w args :
  command args = DOWNLOAD ->
  List.filter is_prep_call (trace (main cfg w args)) = [].
Proof.
  intros Hcmd.
  destruct (main_shape cfg w args) as (pre & t & -> & Hpre & Ht).
  rewrite Hcmd in Hpre. rewrite List.filter_app.
  rewrite (filter_none is_prep_call
             (fun e => in_connect e || in_guard e
                       || in_preparation e
                          && negb (Commands_eqb DOWNLOAD DOWNLOAD))%bool pre
             ltac:(by intros []) Hpre).
  destruct Ht as [-> | [-> | [_ ->]]]; [done | done |].
  apply (filter_none is_prep_call
           (fun e => in_download e || in_closing e)%bool); [by intros [] |].
  apply Forall_app_2.
  - eapply Forall_impl; [apply download_alphabet |].
    intros e He. cbv beta in *. by rewrite He.
  - destruct (outcome (notebook_download cfg w args)); repeat constructor.
Qed.

Lemma download_never_prepares_witness :
  List.filter is_prep_call
    (trace (main cfg0 (quiet_world false "" None ["a"])
                 (mkArgs DOWNLOAD "HTTP" ["a"]))) = [].
Proof.
  exact (download_never_prepares cfg0 (quiet_world false "" None ["a"])
           (mkArgs DOWNLOAD "HTTP" ["a"]) eq_refl).
Defined.

(** X4. With the strategy SKIP the downloader is neither instantiated nor
    invoked, for every command and whatever the collaborators answer. *)
Theorem skip_never_fetches cfg w args :
  strategy args = "SKIP" ->
  Forall (fun e => is_fetch e = false) (trace (main cfg w args)).
Proof.
  intros Hs.
  destruct (main_shape cfg w args) as (pre & t & -> & Hpre & Ht).
  apply Forall_app_2.
  - eapply Forall_impl; [exact Hpre |]. intros [] He; try done.
    all: cbn in He; by destruct (Commands_eqb (command args) DOWNLOAD).
  - destruct Ht as [-> | [-> | [_ ->]]]; [constructor | repeat constructor |].
    apply Forall_app_2.
    + unfold notebook_download, print. rewrite Hs. cbn [String.eqb negb].
      change (String.eqb "SKIP" "SKIP") with true. cbn [negb].
      stage_alphabet.
    + destruct (outcome (notebook_download cfg w args)); repeat constructor.
Qed.

Lemma skip_never_fetches_witness :
  Forall (fun e => is_fetch e = false)
    (trace (main cfg0 (quiet_world false "" None ["a"])
                 (mkArgs INIT "SKIP" ["a"]))).
Proof.
  exact (skip_never_fetches cfg0 (quiet_world false "" None ["a"])
           (mkArgs INIT "SKIP" ["a"]) eq_refl).
Defined.

(** X5. The database is dropped and re-created only with
    [drop_if_exists=True], never by DOWNLOAD, and only when it did not exist
    or when REFRESH was confirmed by the operator with yes. *)
Theorem recreate_requires_consent cfg w args b :
  ECreateNewDb b ∈ trace (main cfg w args) ->
  b = true /\
  command args <> DOWNLOAD /\
  (db_exists w = inr false \/
   (command args = REFRESH /\
    exists ans, input w = inr ans /\ ans ∈ yes_spellings)).
Proof.
  intros Hin.
  destruct (new_db_engine w) as [e | []] eqn:Hc.
  { rewrite (main_connect_fails cfg w args e Hc) in Hin. cbn in Hin.
    repeat (apply elem_of_cons in Hin as [Hin | Hin]; [discriminate Hin |]).
    by apply elem_of_nil in Hin. }
  rewrite main_trace in Hin by done. rewrite !elem_of_app in Hin.
  destruct Hin as [Hin | [Hin | Hin]].
  { pose proof (connect_alphabet cfg w) as Ha.
    rewrite Forall_forall in Ha. by apply Ha in Hin. }
  { pose proof (guard_alphabet cfg w (command args)) as Ha.
    rewrite Forall_forall in Ha. by apply Ha in Hin. }
  destruct (outcome (check_user_variables cfg w (command args)))
    as [e | p] eqn:Hg; [by apply elem_of_nil in Hin |].
  destruct (run_stages_cases cfg w args p) as (t & Ht & Hcases).
  rewrite Ht in Hin. apply elem_of_app in Hin as [Hin | Hin].
  - destruct p; cbn [andb] in Hin; [| by apply elem_of_nil in Hin].
    destruct (Commands_eqb (command args) DOWNLOAD) eqn:E; cbn [negb] in Hin;
      [by apply elem_of_nil in Hin |].
    split; [| split].
    + pose proof (preparation_drops cfg w) as Ha.
      rewrite Forall_forall in Ha. by apply Ha in Hin.
    + intros Hcmd. apply Commands_eqb_eq in Hcmd. congruence.
    + by apply (guard_true_inv cfg).
  - exfalso. destruct Hcases as [-> | ->]; [by apply elem_of_nil in Hin |].
    apply elem_of_app in Hin as [Hin | Hin].
    + destruct p; [| by apply elem_of_nil in Hin].
      pose proof (download_alphabet cfg w args) as Ha.
      rewrite Forall_forall in Ha. by apply Ha in Hin.
    + destruct (if p then outcome (notebook_download cfg w args) else inr ());
        [by apply elem_of_nil in Hin |].
      repeat (apply elem_of_cons in Hin as [Hin | Hin]; [discriminate Hin |]).
      by apply elem_of_nil in Hin.
Qed.

Lemma recreate_requires_consent_witness :
  command (mkArgs REFRESH "SKIP" []) <> DOWNLOAD /\
  (db_exists (quiet_world true "yes" None []) = inr false \/
   (command (mkArgs REFRESH "SKIP" []) = REFRESH /\
    exists ans, input (quiet_world true "yes" None []) = inr ans /\
                ans ∈ yes_spellings)).
Proof.
  assert (Hin : ECreateNewDb true ∈
                trace (main cfg0 (quiet_world true "yes" None [])
                            (mkArgs REFRESH "SKIP" []))).
  { apply list_elem_of_In. vm_compute. tauto. }
  exact (proj2 (recreate_requires_consent cfg0 (quiet_world true "yes" None [])
                  (mkArgs REFRESH "SKIP" []) true Hin)).
Defined.

(** X6. No rollback: when [write_tables] raises in a proceeding INIT or
    REFRESH, the failed write is the last event of the run -- the database
    has been dropped and re-created just before, no constraint is set, the
    notebooks are not queried -- and the same exception leaves [main] and
    [entry]. *)
Theorem write_failure_stops_run cfg w args tables c0 processed e :
  guard_decides cfg w args true ->
  command args <> DOWNLOAD ->
  new_data_loader w = inr tt ->
  get_tables_dict w = inr tables ->
  get_constraints_df w 0 = inr c0 ->
  new_mk_preprocessor w = inr tt ->
  preprocess_mk w = inr processed ->
  create_new_db w = inr tt ->
  write_tables w = inl e ->
  (exists t,
     trace (main cfg w args) =
     t ++ [EPrint stdout "## Initializing DB...";
           ECreateNewDb true;
           EPrint stdout "***************************";
           EPrint stdout "** DB POPULATION STARTED **";
           EPrint stdout "***************************";
           EWriteTables (fst processed)] /\
     Forall (fun e => is_mutation e = false) t) /\
  outcome (main cfg w args) = inl e /\
  outcome (entry cfg w args) = inl e.
Proof.
  intros [Hc Hg] Hcmd H1 H2 H3 H4 H5 H6 H7.
  assert (E : Commands_eqb (command args) DOWNLOAD = false).
  { destruct (Commands_eqb (command args) DOWNLOAD) eqn:E; [| done].
    by apply Commands_eqb_eq in E. }
  assert (Hp : data_preparation cfg w =
    ([EPrint stdout "********************";
      EPrint stdout "*** LOADING DATA ***";
      EPrint stdout "********************";
      EDataLoader (constraints_file_path cfg) (meta_kaggle_path cfg);
      EPrint stdout "***********************************";
      EPrint stdout "** TABLES PRE-PROCESSING STARTED **";
      EPrint stdout "***********************************";
      EGetTablesDict;
      EGetConstraintsDf;
      EMkPreprocessor tables c0;
      EPreprocessMk;
      EPrint stdout "*************";
      EPrint stdout "*** STATS ***";
      EPrint stdout ("*************" +:+ nl);
      EPrintStats (snd processed)] ++
     [EPrint stdout "## Initializing DB...";
      ECreateNewDb true;
      EPrint stdout "***************************";
      EPrint stdout "** DB POPULATION STARTED **";
      EPrint stdout "***************************";
      EWriteTables (fst processed)], inl e)).
  { unfold data_preparation. by rewrite H1, H2, H3, H4, H5, H6, H7. }
  assert (Ho : outcome (main cfg w args) = inl e).
  { rewrite main_outcome, Hg, run_stages_outcome by done.
    cbn [andb]. by rewrite E, Hp. }
  split; [| split; [exact Ho |]].
  - rewrite main_trace, Hg by done.
    unfold run_stages. rewrite trace_bind. cbn [andb]. rewrite E. cbn [negb].
    rewrite Hp. cbn [trace outcome fst snd]. rewrite app_nil_r.
    eexists. split; [by rewrite !app_assoc |].
    repeat apply Forall_app_2.
    + eapply Forall_impl; [apply connect_alphabet |]. by intros [].
    + eapply Forall_impl; [apply guard_alphabet |]. by intros [].
    + repeat constructor.
  - by rewrite entry_outcome.
Qed.

Lemma write_failure_stops_run_witness :
  outcome (main cfg0 (with_write_tables (quiet_world false "" None [])
                                        (inl (Raised "IntegrityError")))
                (mkArgs INIT "HTTP" [])) = inl (Raised "IntegrityError").
Proof.
  assert (Hg : guard_decides cfg0
                 (with_write_tables (quiet_world false "" None [])
                                    (inl (Raised "IntegrityError")))
                 (mkArgs INIT "HTTP" []) true)
    by (split; reflexivity).
  exact (proj1 (proj2 (write_failure_stops_run cfg0
           (with_write_tables (quiet_world false "" None [])
                              (inl (Raised "IntegrityError")))
           (mkArgs INIT "HTTP" []) ∅ [] (∅, []) (Raised "IntegrityError")
           Hg ltac:(discriminate) eq_refl eq_refl eq_refl eq_refl eq_refl
           eq_refl eq_refl))).
Defined.

Lemma main_prefix (P : event -> Prop) cfg w args :
  Forall P (trace (connect cfg w)) ->
  Forall P (trace (check_user_variables cfg w (command args))) ->
  Forall P (trace (data_preparation cfg w)) ->
  exists pre t,
    trace (main cfg w args) = pre ++ t /\
    Forall P pre /\
    (t = [] \/ t = [ESleep; EPrint stdout msg_end] \/
     (outcome (check_user_variables cfg w (command args)) = inr true /\
      t = trace (notebook_download cfg w args) ++
          match outcome (notebook_download cfg w args) with
          | inr _ => [ESleep; EPrint stdout msg_end]
          | inl _ => []
          end)).
Proof.
  intros Hconn Hguard Hprep.
  destruct (new_db_engine w) as [e | []] eqn:Hc.
  { exists (trace (main cfg w args)), []. rewrite app_nil_r.
    split; [done |]. split; [| by left].
    unfold main. cbv zeta. rewrite trace_bind, connect_outcome, Hc.
    by rewrite app_nil_r. }
  rewrite main_trace by done.
  destruct (outcome (check_user_variables cfg w (command args)))
    as [e | p] eqn:Hg.
  { exists (trace (connect cfg w) ++
            trace (check_user_variables cfg w (command args))), [].
    split; [by rewrite !app_nil_r |].
    split; [by apply Forall_app_2 | by left]. }
  destruct (run_stages_cases cfg w args p) as (t & -> & Ht).
  exists (trace (connect cfg w) ++
          trace (check_user_variables cfg w (command args)) ++
          (if (p && negb (Commands_eqb (command args) DOWNLOAD))%bool
           then trace (data_preparation cfg w) else [])), t.
  split; [by rewrite <- !app_assoc |]. split.
  - repeat apply Forall_app_2; [done | done |].
    by destruct (p && negb (Commands_eqb (command args) DOWNLOAD))%bool.
  - destruct Ht as [-> | ->]; [by left |].
    destruct p; [right; right; by split | right; by left].
Qed.

Lemma connect_keeps_handler cfg w :
  Forall (fun e => (is_fetch e || is_del_db_engine e)%bool = false)
         (trace (connect cfg w)).
Proof. unfold connect, print. stage_alphabet. Qed.

Lemma guard_keeps_handler cfg w c :
  Forall (fun e => (is_fetch e || is_del_db_engine e)%bool = false)
         (trace (check_user_variables cfg w c)).
Proof. unfold check_user_variables, print. cbv zeta. stage_alphabet. Qed.

Lemma preparation_keeps_handler cfg w :
  Forall (fun e => (is_fetch e || is_del_db_engine e)%bool = false)
         (trace (data_preparation cfg w)).
Proof. unfold data_preparation, print. cbv zeta. stage_alphabet. Qed.

(** X7. In every run the database handler is deleted at most once and is
    not used after [del db_engine], and the downloader is instantiated and
    invoked only after that deletion. *)
Theorem handler_released_before_download cfg w args :
  handler_discipline false (trace (main cfg w args)) = true.
Proof.
  destruct (main_prefix _ cfg w args (connect_keeps_handler cfg w)
              (guard_keeps_handler cfg w (command args))
              (preparation_keeps_handler cfg w))
    as (pre & t & -> & Hpre & Ht).
  rewrite (discipline_prefix pre t Hpre).
  destruct Ht as [-> | [-> | [_ ->]]]; [done | done |].
  apply download_discipline.
Qed.

(** X8. DOWNLOAD against a database that does not exist, with an empty
    archive folder, is not stopped by the guard stage: without any
    preparation the run queries the notebook identifiers of the missing
    database, and an exception of that query leaves [main] and [entry]. *)
Theorem download_absent_store_proceeds cfg w args :
  command args = DOWNLOAD ->
  new_db_engine w = inr tt ->
  db_exists w = inr false ->
  iterdir_next w = inr None ->
  guard_decides cfg w args true /\
  (exists t,
     List.filter (fun e => negb (is_print e)) (trace (main cfg w args)) =
     [EDbEngine (db_username cfg) (db_password cfg) (db_host cfg)
                (db_port cfg) (db_name cfg);
      EDbExists;
      EIterdir (nb_archive_path cfg);
      EGetNbIdentifiers (nb_conf_languages cfg)] ++ t) /\
  (forall e, get_nb_identifiers w = inl e ->
     outcome (main cfg w args) = inl e /\
     outcome (entry cfg w args) = inl e).
Proof.
  intros Hcmd Hc Hdb Hdir.
  assert (Hg : check_user_variables cfg w DOWNLOAD =
               ([EDbExists; EIterdir (nb_archive_path cfg)], inr true)).
  { unfold check_user_variables. by rewrite Hdb, Hdir. }
  split; [split; [done | by rewrite Hcmd, Hg] |]. split.
  - unfold main, connect, run_stages, notebook_download. cbv zeta.
    rewrite Hcmd, Hg, Hc.
    destruct (get_nb_identifiers w); [by eexists |].
    destruct (String.eqb (strategy args) "SKIP"); [by eexists |].
    destruct (new_downloader w) as [? | []]; [by eexists |].
    destruct (download_notebooks w) as [? | []]; by eexists.
  - intros e He.
    assert (Ho : outcome (main cfg w args) = inl e).
    { rewrite main_outcome, Hcmd, Hg by done. cbn [outcome snd].
      rewrite run_stages_outcome, Hcmd. cbn.
      unfold notebook_download. by rewrite He. }
    split; [exact Ho |]. by rewrite entry_outcome.
Qed.

Lemma download_absent_store_proceeds_witness :
  guard_decides cfg0 (quiet_world false "" None ["a"])
                (mkArgs DOWNLOAD "HTTP" ["a"]) true.
Proof.
  exact (proj1 (download_absent_store_proceeds cfg0
                  (quiet_world false "" None ["a"])
                  (mkArgs DOWNLOAD "HTTP" ["a"])
                  eq_refl eq_refl eq_refl eq_refl)).
Defined.





(** X12. [Commands.commands()] lists every command exactly once, under
    pairwise distinct names, so of the three comparisons
    [command == Commands.X] made by [main] exactly one holds. *)
Theorem commands_enumeration :
  NoDup (command_name <$> commands) /\
  (forall c, c ∈ commands) /\
  (forall a b, Commands_eqb a b = true <-> a = b) /\
  (forall c, List.filter (Commands_eqb c) commands = [c]).
Proof.
  split; [| split; [| split]].
  - cbn. repeat (apply NoDup_cons; split;
                 [rewrite ?elem_of_cons, elem_of_nil; intuition discriminate |]).
    apply NoDup_nil_2.
  - intros []; unfold commands; in_list.
  - apply Commands_eqb_eq.
  - by intros [].
Qed.

(** X13. Up to the order of the list, what is handed to the downloader
    depends only on the sets of the identifiers returned and of the filter:
    the order and the repetitions in [nb_identifiers] or in the [-m] option,
    and the exchange of the two operands, only permute it. *)
Theorem dispatch_depends_on_sets w S S' Mf Mf' :
  faithful_order w ->
  (forall x, x ∈ S <-> x ∈ S') ->
  (forall x, x ∈ Mf <-> x ∈ Mf') ->
  download_identifiers w S Mf ≡ₚ download_identifiers w S' Mf' /\
  download_identifiers w S Mf ≡ₚ download_identifiers w Mf S.
Proof.
  intros Hw HS HM.
  destruct (download_identifiers_spec w S Mf Hw) as [Hnd Hin].
  split; (apply NoDup_Permutation; [exact Hnd | |]).
  - apply (download_identifiers_spec w S' Mf' Hw).
  - intros x. rewrite Hin.
    rewrite (proj2 (download_identifiers_spec w S' Mf' Hw) x).
    by rewrite HS, HM.
  - apply (download_identifiers_spec w Mf S Hw).
  - intros x. rewrite Hin.
    rewrite (proj2 (download_identifiers_spec w Mf S Hw) x). tauto.
Qed.

Lemma dispatch_depends_on_sets_witness :
  download_identifiers (quiet_world false "" None []) ["a"; "b"; "a"] ["b"; "b"]
  ≡ₚ download_identifiers (quiet_world false "" None []) ["b"; "a"] ["b"].
Proof.
  refine (proj1 (dispatch_depends_on_sets (quiet_world false "" None [])
                   ["a"; "b"; "a"] ["b"; "a"] ["b"; "b"] ["b"] _ _ _)).
  - intros a b X. reflexivity.
  - intros x. rewrite !elem_of_cons, !elem_of_nil. tauto.
  - intros x. rewrite !elem_of_cons, !elem_of_nil. tauto.
Defined.

(** X14. The strategy SKIP is looked at only after the notebook identifiers
    have been queried and printed: a proceeding SKIP run still calls
    [get_nb_identifiers], fails when that call raises, and otherwise prints
    the identifiers, reports that the download is skipped and returns. *)
Theorem skip_still_queries cfg w args :
  strategy args = "SKIP" ->
  guard_decides cfg w args true ->
  (command args <> DOWNLOAD -> outcome (data_preparation cfg w) = inr tt) ->
  EGetNbIdentifiers (nb_conf_languages cfg) ∈ trace (main cfg w args) /\
  (forall e, get_nb_identifiers w = inl e -> outcome (main cfg w args) = inl e) /\
  (forall S, get_nb_identifiers w = inr S ->
     outcome (main cfg w args) = inr tt /\
     EPrintIdentifiers S ∈ trace (main cfg w args) /\
     EPrint stdout "## Download skipped." ∈ trace (main cfg w args)).
Proof.
  intros Hs [Hc Hg] Hp.
  destruct (run_stages_proceed cfg w args) as (t & Ht & _ & Htail).
  specialize (Htail Hp).
  assert (Hprep : (if (true && negb (Commands_eqb (command args) DOWNLOAD))%bool
                   then outcome (data_preparation cfg w) else inr tt) = inr tt).
  { cbn [andb]. destruct (Commands_eqb (command args) DOWNLOAD) eqn:E; [done |].
    apply Hp. intros Hcmd. apply Commands_eqb_eq in Hcmd. congruence. }
  rewrite main_outcome, main_trace, Hg, run_stages_outcome, Hprep, Ht, Htail
    by done.
  unfold notebook_download. rewrite Hs.
  change (String.eqb "SKIP" "SKIP") with true. cbn [negb].
  split; [| split].
  - rewrite !elem_of_app. do 3 right. left.
    destruct (get_nb_identifiers w); cbn; in_list.
  - intros e He. by rewrite He.
  - intros S HS. rewrite HS. split; [done |].
    split; rewrite !elem_of_app; do 3 right; left; cbn; in_list.
Qed.

Lemma skip_still_queries_witness :
  EGetNbIdentifiers (nb_conf_languages cfg0) ∈
    trace (main cfg0 (quiet_world false "" None ["a"])
                (mkArgs DOWNLOAD "SKIP" [])).
Proof.
  assert (Hg : guard_decides cfg0 (quiet_world false "" None ["a"])
                 (mkArgs DOWNLOAD "SKIP" []) true)
    by (split; reflexivity).
  exact (proj1 (skip_still_queries cfg0 (quiet_world false "" None ["a"])
                  (mkArgs DOWNLOAD "SKIP" []) eq_refl Hg (fun _ => eq_refl))).
Defined.

(** X15. How a run ends.  Every run of [main] is fail-stop: each call
    before the last was answered with a value.  When [main] returns, the
    last events are the sleep and the closing line.  When [main] raises [e],
    the last event is the call that the collaborator answered with [e]:
    [main] makes no print, no second attempt and no compensating call after
    the failure. *)
Theorem run_ending cfg w args :
  fail_stop w 0 (trace (main cfg w args)) (raised (outcome (main cfg w args))) /\
  match outcome (main cfg w args) with
  | inr _ =>
      exists t, trace (main cfg w args) = t ++ [ESleep; EPrint stdout msg_end]
  | inl e =>
      exists t ev,
        trace (main cfg w args) = t ++ [ev] /\
        answer_raises w (count_get_constraints t) ev = Some e /\
        fail_stop w 0 t None
  end.
Proof.
  split; [apply main_fail_stop |].
  destruct (outcome (main cfg w args)) as [e | []] eqn:Ho.
  - by apply main_raises.
  - by apply main_returns.
Qed.
